(** * tomdtopdf: the HTML-to-Markdown normaliser (2html2md.py) and the
      input checks of the Markdown-to-PDF tool (tomdtopdf.py)

    Python [str] values are modelled as Stdlib [string]; a character is an
    [ascii] read as the code point 0..255 (ASCII and Latin-1), which is the
    range on which Python's [re] character classes are written out below. *)

From Stdlib Require Import Bool Arith Lia List ZArith Ascii String.
Import ListNotations.
Open Scope bool_scope.
Open Scope string_scope.

(* ------------------------------------------------------------------ *)
(** ** Character classes of Python's [re] module for [str] patterns *)

Module Py.
Local Open Scope nat_scope.

Definition code (c : ascii) : nat := nat_of_ascii c.

(** [\s] of [re] and [str.isspace]: [\t \n \v \f \r], the separators
    0x1C..0x1F, space, NEL (0x85) and NBSP (0xA0). *)
Definition is_space (c : ascii) : bool :=
  let n := code c in
  ((9 <=? n) && (n <=? 13)) || ((28 <=? n) && (n <=? 32))
  || (n =? 133) || (n =? 160).

(** [\w] of [re] for [str] patterns: [str.isalnum] or ['_']; on Latin-1 the
    alphabetic, digit and numeric code points. *)
Definition is_word (c : ascii) : bool :=
  let n := code c in
  ((48 <=? n) && (n <=? 57)) || ((65 <=? n) && (n <=? 90))
  || (n =? 95) || ((97 <=? n) && (n <=? 122))
  || (n =? 170) || (n =? 178) || (n =? 179) || (n =? 181) || (n =? 185)
  || (n =? 186) || ((188 <=? n) && (n <=? 190))
  || ((192 <=? n) && (n <=? 214)) || ((216 <=? n) && (n <=? 246))
  || (248 <=? n).

(** [str.split(sep)] with a one-character separator. *)
Fixpoint split (sep : ascii) (s : string) : list string :=
  match s with
  | EmptyString => [EmptyString]
  | String c r =>
      if Ascii.eqb c sep then EmptyString :: split sep r
      else match split sep r with
           | h :: t => String c h :: t
           | [] => [String c EmptyString]
           end
  end.

(** [sep.join(parts)] with a one-character separator. *)
Fixpoint join (sep : ascii) (parts : list string) : string :=
  match parts with
  | [] => EmptyString
  | [p] => p
  | p :: ps => p ++ String sep (join sep ps)
  end.

(** [str.lstrip()], [str.rstrip()] and [str.strip()]. *)
Fixpoint lstrip (s : string) : string :=
  match s with
  | EmptyString => EmptyString
  | String c r => if is_space c then lstrip r else s
  end.

Fixpoint rstrip (s : string) : string :=
  match s with
  | EmptyString => EmptyString
  | String c r =>
      let r' := rstrip r in
      if is_space c && String.eqb r' EmptyString then EmptyString
      else String c r'
  end.

Definition strip (s : string) : string := rstrip (lstrip s).

(** [s.startswith(p)]. *)
Definition startswith (s p : string) : bool := String.prefix p s.

(** [s.replace(old, new)] for one-character [old] and [new]. *)
Fixpoint replace (old new : ascii) (s : string) : string :=
  match s with
  | EmptyString => EmptyString
  | String c r => String (if Ascii.eqb c old then new else c) (replace old new r)
  end.

(** Truthiness of a [str]: [if s:] *)
Definition str_truthy (s : string) : bool := negb (String.eqb s EmptyString).

End Py.

(* ------------------------------------------------------------------ *)
(** ** Text passes of 2html2md.py (after Markdown serialisation) *)

Module Text.

(** [increase_heading_levels]:
    [re.sub(r'^(#{1,6})', lambda m: '#' + m.group(1), s, flags=re.MULTILINE)].
    [bol] says whether the current position is matched by [^] in multiline
    mode (start of the text or right after a ['\n']).  At such a position
    [#{1,6}] greedily takes up to six ['#']; the match is replaced by ['#']
    followed by the group, and the scan resumes after the match, at a position
    which follows a ['#'] and so is not a line start. *)
Fixpoint heading_sub (bol : bool) (s : string) : string :=
  match s with
  | EmptyString => EmptyString
  | String c r =>
      if bol && Ascii.eqb c "#" then
        String "#" (String c
          ((fix group (k : nat) (t : string) : string :=
              match k, t with
              | S k', String "#"%char t' => String "#" (group k' t')
              | _, _ => heading_sub false t
              end) 5 r))
      else String c (heading_sub (Ascii.eqb c "010") r)
  end.

Definition increase_heading_levels (markdown_content : string) : string :=
  heading_sub true markdown_content.

(** [ensure_space_before_links]:
    [re.sub(r'(?<!\!)\b(\S)(\[)', r'\1 \2', s)].
    At a position [i] holding [c] followed by ['[']: the lookbehind [(?<!\!)]
    tests the character before position [i] ([prev]), [\b] tests a word
    boundary between [prev] and [c], [\S] tests [c].  A match consumes [c] and
    ['['] and the scan resumes after the ['['] (whose predecessor is ['[']). *)
Definition word_opt (prev : option ascii) : bool :=
  match prev with Some p => Py.is_word p | None => false end.

Definition link_match (prev : option ascii) (c : ascii) : bool :=
  negb (match prev with Some p => Ascii.eqb p "!" | None => false end)
  && xorb (word_opt prev) (Py.is_word c)
  && negb (Py.is_space c).

Fixpoint link_sub (prev : option ascii) (s : string) : string :=
  match s with
  | EmptyString => EmptyString
  | String c r =>
      match r with
      | String "["%char r' =>
          if link_match prev c then String c (String " " (String "[" (link_sub (Some "["%char) r')))
          else String c (link_sub (Some c) r)
      | _ => String c (link_sub (Some c) r)
      end
  end.

Definition ensure_space_before_links (markdown_content : string) : string :=
  link_sub None markdown_content.

End Text.

Example heading_ex : Text.increase_heading_levels ("# Title" ++ String "010" "## Sub")
  = ("## Title" ++ String "010" "### Sub")%string.
Proof. reflexivity. Qed.
Example link_ex1 : Text.ensure_space_before_links "Word[link](url)" = "Word[link](url)".
Proof. reflexivity. Qed.
Example link_ex2 : Text.ensure_space_before_links "a![b](c)" = "a! [b](c)".
Proof. reflexivity. Qed.
Example link_ex3 : Text.ensure_space_before_links "(a[b](c)" = "(a [b](c)".
Proof. reflexivity. Qed.

(* ------------------------------------------------------------------ *)
(** ** Generic lemmas on the Python string helpers *)

Module PyFacts.

Lemma split_cons (sep : ascii) (s : string) :
  exists h t, Py.split sep s = h :: t.
Proof.
  induction s as [|c r IH]; simpl.
  - eauto.
  - destruct (Ascii.eqb c sep); [eauto|].
    destruct IH as [h [t ->]]; eauto.
Qed.

Lemma split_sep (sep : ascii) (r : string) :
  Py.split sep (String sep r) = "" :: Py.split sep r.
Proof. simpl. now rewrite Ascii.eqb_refl. Qed.

Lemma split_char (sep c : ascii) (r h : string) (t : list string) :
  Ascii.eqb c sep = false -> Py.split sep r = h :: t ->
  Py.split sep (String c r) = String c h :: t.
Proof. intros E Ht. simpl. now rewrite E, Ht. Qed.

Lemma join_cons_char (sep a : ascii) (x : string) (ys : list string) :
  Py.join sep (String a x :: ys) = String a (Py.join sep (x :: ys)).
Proof. destruct ys; reflexivity. Qed.

Lemma join_cons_nonnil (sep : ascii) (x y : string) (ys : list string) :
  Py.join sep (x :: y :: ys) = (x ++ String sep (Py.join sep (y :: ys)))%string.
Proof. reflexivity. Qed.

Lemma join_split (sep : ascii) (s : string) :
  Py.join sep (Py.split sep s) = s.
Proof.
  induction s as [|c r IH]; simpl; [reflexivity|].
  destruct (Ascii.eqb c sep) eqn:E.
  - apply Ascii.eqb_eq in E; subst.
    destruct (split_cons sep r) as [h [t Ht]]. rewrite Ht in *.
    change (Py.join sep ("" :: h :: t) = String sep r).
    rewrite join_cons_nonnil, IH. reflexivity.
  - destruct (split_cons sep r) as [h [t Ht]]. rewrite Ht in *.
    change (Py.join sep (String c h :: t) = String c r).
    rewrite join_cons_char. now rewrite IH.
Qed.

End PyFacts.

(* ------------------------------------------------------------------ *)
(** ** Heading promotion, line by line *)

Module Headings.
Import Text PyFacts.

(** The spec's reading: a line "begins with one to six '#'" exactly when
    its first character is '#'; such a line gets one '#' prepended. *)
Definition promote_line (l : string) : string :=
  if Py.startswith l "#" then String "#" l else l.

Definition promote_lines (s : string) : string :=
  Py.join "010" (map promote_line (Py.split "010" s)).

(** Some line of [s] starts with '#'. *)
Definition has_heading_line (s : string) : bool :=
  existsb (fun l => Py.startswith l "#") (Py.split "010" s).

Lemma group_copies (k : nat) (t : string) :
  (fix group (k : nat) (t : string) : string :=
     match k, t with
     | S k', String "#"%char t' => String "#" (group k' t')
     | _, _ => heading_sub false t
     end) k t = heading_sub false t.
Proof.
  revert t; induction k as [|k IH]; intros t; [reflexivity|].
  destruct t as [|c t]; [reflexivity|].
  destruct (Ascii.eqb c "#") eqn:E.
  - apply Ascii.eqb_eq in E; subst. rewrite IH. reflexivity.
  - destruct c as [[] [] [] [] [] [] [] []]; try reflexivity; discriminate E.
Qed.

Lemma heading_sub_hash (r : string) :
  heading_sub true (String "#" r) = String "#" (String "#" (heading_sub false r)).
Proof.
  rewrite <- (group_copies 5 r). reflexivity.
Qed.

Lemma promote_hash (h : string) :
  promote_line (String "#" h) = String "#" (String "#" h).
Proof. destruct h; reflexivity. Qed.

Definition first_line_map (b : bool) (ls : list string) : list string :=
  match ls with
  | l :: ls' => (if b then promote_line l else l) :: map promote_line ls'
  | [] => []
  end.

Lemma heading_sub_lines (b : bool) (s : string) :
  heading_sub b s = Py.join "010" (first_line_map b (Py.split "010" s)).
Proof.
  revert b; induction s as [|c r IH]; intros b; [destruct b; reflexivity|].
  destruct (split_cons "010" r) as [h [t Ht]].
  destruct (Ascii.eqb c "010") eqn:En.
  - apply Ascii.eqb_eq in En; subst c.
    replace (heading_sub b (String "010" r)) with
      (String "010" (heading_sub true r)) by (destruct b; reflexivity).
    rewrite split_sep, IH, Ht.
    assert (Hb : (if b then promote_line "" else "") = "") by (destruct b; reflexivity).
    cbn [first_line_map map]. rewrite Hb, join_cons_nonnil. reflexivity.
  - rewrite (split_char _ _ _ _ _ En Ht).
    destruct (b && Ascii.eqb c "#") eqn:Eh.
    + apply andb_true_iff in Eh as [-> Ec]. apply Ascii.eqb_eq in Ec; subst c.
      rewrite heading_sub_hash, (IH false), Ht.
      cbn [first_line_map]. rewrite promote_hash, !join_cons_char. reflexivity.
    + replace (heading_sub b (String c r)) with (String c (heading_sub false r)).
      2:{ simpl. rewrite Eh, En. reflexivity. }
      rewrite (IH false), Ht.
      change (String c (Py.join "010" (h :: map promote_line t))
              = Py.join "010" ((if b then promote_line (String c h) else String c h)
                                :: map promote_line t)).
      rewrite <- join_cons_char. f_equal. f_equal.
      destruct b; [|reflexivity].
      unfold promote_line, Py.startswith. simpl in Eh.
      destruct c as [[] [] [] [] [] [] [] []]; try reflexivity; discriminate Eh.
Qed.

Lemma increase_heading_levels_lines (s : string) :
  increase_heading_levels s = promote_lines s.
Proof.
  unfold increase_heading_levels, promote_lines. rewrite heading_sub_lines.
  destruct (split_cons "010" s) as [h [t ->]]. reflexivity.
Qed.

Lemma promote_lines_no_heading (s : string) :
  has_heading_line s = false -> promote_lines s = s.
Proof.
  unfold has_heading_line, promote_lines. intros H.
  rewrite <- (join_split "010" s) at 2. f_equal.
  induction (Py.split "010" s) as [|l ls IH]; [reflexivity|].
  simpl in H. apply orb_false_iff in H as [H1 H2].
  cbn [map]. rewrite IH by exact H2. unfold promote_line. rewrite H1. reflexivity.
Qed.

End Headings.

(* ------------------------------------------------------------------ *)
(** ** The parsed document tree (BeautifulSoup with html.parser) *)

Module Html.

(** A node is a text node or an element: tag name, attribute mapping (an
    ordered dict; html.parser keeps one value per attribute name) and
    children.  The soup itself is the list of its top-level nodes. *)
#[local] Set Warnings "-register-all".
Inductive node : Type :=
| Text (s : string)
| Element (name : string) (attrs : list (string * string)) (children : list node).

Definition document := list node.

(** [tag.get(k)] *)
Fixpoint get (k : string) (attrs : list (string * string)) : option string :=
  match attrs with
  | [] => None
  | (k', v) :: rest => if String.eqb k k' then Some v else get k rest
  end.

(** [tag[k] = v]: dict assignment, in place for an existing key, appended
    for a new one. *)
Fixpoint set (k v : string) (attrs : list (string * string)) : list (string * string) :=
  match attrs with
  | [] => [(k, v)]
  | (k', v') :: rest =>
      if String.eqb k k' then (k', v) :: rest else (k', v') :: set k v rest
  end.

(** Induction over nodes with a hypothesis for every child. *)
Fixpoint node_ind' (P : node -> Prop)
  (ft : forall s, P (Text s))
  (fe : forall name attrs ch, Forall P ch -> P (Element name attrs ch))
  (n : node) : P n :=
  match n with
  | Text s => ft s
  | Element name attrs ch =>
      fe name attrs ch
        ((fix go (l : list node) : Forall P l :=
            match l with
            | [] => Forall_nil P
            | x :: xs => Forall_cons x (node_ind' P ft fe x) (go xs)
            end) ch)
  end.

Lemma set_get (k v : string) (attrs : list (string * string)) :
  get k attrs = Some v -> set k v attrs = attrs.
Proof.
  induction attrs as [|[k' v'] rest IH]; simpl; [discriminate|].
  destruct (String.eqb k k') eqn:E.
  - intros H; injection H as ->. apply String.eqb_eq in E; subst. reflexivity.
  - intros H. now rewrite IH.
Qed.

End Html.

(* ------------------------------------------------------------------ *)
(** ** [os.path] (posixpath) *)

Module PosixPath.

(** [str.rfind(c)], with [None] for Python's [-1]. *)
Fixpoint rfind (c : ascii) (s : string) : option nat :=
  match s with
  | EmptyString => None
  | String a r =>
      match rfind c r with
      | Some i => Some (S i)
      | None => if Ascii.eqb a c then Some 0 else None
      end
  end.

(** [posixpath.basename(p)]: [i = p.rfind('/') + 1; return p[i:]]. *)
Definition basename (p : string) : string :=
  let i := match rfind "/" p with Some i => S i | None => 0 end in
  substring i (String.length p - i) p.

(** [posixpath.join(a, b)] for two components. *)
Definition join (a b : string) : string :=
  if Py.startswith b "/" then b
  else if String.eqb a "" || String.eqb (substring (String.length a - 1) 1 a) "/"
  then (a ++ b)%string
  else (a ++ String "/" b)%string.

End PosixPath.

Example basename_ex1 : PosixPath.basename "/a/b/photo.png" = "photo.png".
Proof. reflexivity. Qed.
Example basename_ex2 : PosixPath.basename "photo.png" = "photo.png".
Proof. reflexivity. Qed.
Example basename_ex3 : PosixPath.basename "a/b/" = "".
Proof. reflexivity. Qed.
Example join_ex : PosixPath.join "images" "c.jpg" = "images/c.jpg".
Proof. reflexivity. Qed.

(* ------------------------------------------------------------------ *)
(** ** The tree passes of [convert_html_to_md] *)

Module Convert.
Import Html.

(** [clean_google_url]: [re.search(r'q=(https?://[^&]+)', url)], returning
    group 1 on a match and [url] otherwise. *)

(** [[^&]+] is greedy and nothing follows it: it takes the longest
    '&'-free prefix, and fails when that prefix is empty. *)
Fixpoint take_non_amp (s : string) : string :=
  match s with
  | EmptyString => EmptyString
  | String c r => if Ascii.eqb c "&" then EmptyString else String c (take_non_amp r)
  end.

(** Literal characters of a pattern: [Some rest] when [s] starts with [p]. *)
Fixpoint strip_prefix (p s : string) : option string :=
  match p, s with
  | EmptyString, _ => Some s
  | String a p', String b s' => if Ascii.eqb a b then strip_prefix p' s' else None
  | String _ _, EmptyString => None
  end.

(** [://[^&]+] after the scheme [sch] has been matched. *)
Definition after_scheme (sch r : string) : option string :=
  match strip_prefix "://" r with
  | Some r' =>
      match take_non_amp r' with
      | EmptyString => None
      | x => Some (sch ++ "://" ++ x)%string
      end
  | None => None
  end.

(** The pattern anchored at the start of [s]; [s?] first tries to take the
    ['s'], then backtracks to leave it out. *)
Definition match_q (s : string) : option string :=
  match strip_prefix "q=http" s with
  | Some r =>
      match match strip_prefix "s" r with
            | Some r' => after_scheme "https" r'
            | None => None
            end with
      | Some m => Some m
      | None => after_scheme "http" r
      end
  | None => None
  end.

(** [re.search]: the leftmost position at which the pattern matches. *)
Fixpoint re_search_q (s : string) : option string :=
  match match_q s with
  | Some m => Some m
  | None =>
      match s with
      | EmptyString => None
      | String _ r => re_search_q r
      end
  end.

Definition clean_google_url (url : string) : string :=
  match re_search_q url with
  | Some m => m
  | None => url
  end.

(** Loop body of [for img in soup.find_all('img')]:
    [src = img.get('src'); if src: img['src'] = os.path.join('images', os.path.basename(src))]. *)
Definition img_step (attrs : list (string * string)) : list (string * string) :=
  match get "src" attrs with
  | Some src =>
      if Py.str_truthy src
      then set "src" (PosixPath.join "images" (PosixPath.basename src)) attrs
      else attrs
  | None => attrs
  end.

(** Loop body of [for a in soup.find_all('a', href=True)]:
    [a['href'] = clean_google_url(a['href'])]. *)
Definition link_step (attrs : list (string * string)) : list (string * string) :=
  match get "href" attrs with
  | Some href => set "href" (clean_google_url href) attrs
  | None => attrs
  end.

(** [find_all(name)] visits every element of that name once, and the loop
    body only rewrites that element's attributes: the loop is a map over
    the tree. *)
Fixpoint process_node (name0 : string)
  (step : list (string * string) -> list (string * string)) (n : node) : node :=
  match n with
  | Text s => Text s
  | Element name attrs ch =>
      Element name (if String.eqb name name0 then step attrs else attrs)
        (map (process_node name0 step) ch)
  end.

Definition process_images (doc : document) : document :=
  map (process_node "img" img_step) doc.

Definition process_links (doc : document) : document :=
  map (process_node "a" link_step) doc.

(** [text_node.replace('\n', ' ').replace('\r', ' ')] *)
Definition collapse_text (s : string) : string :=
  Py.replace "013" " " (Py.replace "010" " " s).

(** [remove_line_breaks_within_paragraphs]: the loop visits the [p]
    elements in document order, an enclosing [p] before the [p] elements
    inside it, and each one rewrites every text node of its subtree.  So a
    text node is rewritten once per enclosing [p], outermost first; [pending]
    is the composition of those rewrites on the path from the root. *)
Fixpoint remove_lb_node (pending : string -> string) (n : node) : node :=
  match n with
  | Text s => Text (pending s)
  | Element name attrs ch =>
      let pending' :=
        if String.eqb name "p" then (fun s => collapse_text (pending s)) else pending in
      Element name attrs (map (remove_lb_node pending') ch)
  end.

Definition remove_line_breaks_within_paragraphs (doc : document) : document :=
  map (remove_lb_node (fun s => s)) doc.

End Convert.

Example clean_ex1 :
  Convert.clean_google_url "https://www.google.com/url?q=https://example.com/page&other=1"
  = "https://example.com/page".
Proof. reflexivity. Qed.
Example clean_ex2 : Convert.clean_google_url "https://host/?freq=https://x.com&a=1" = "https://x.com".
Proof. reflexivity. Qed.
Example clean_ex3 : Convert.clean_google_url "https://g.com/url?q=ftp://x.com/f&a=1"
  = "https://g.com/url?q=ftp://x.com/f&a=1".
Proof. reflexivity. Qed.
Example clean_ex4 : Convert.clean_google_url "a?q=http://x&q=https://y" = "http://x".
Proof. reflexivity. Qed.

(* ------------------------------------------------------------------ *)
(** ** Paragraph line breaks, read as the spec words them *)

Module Paragraphs.
Import Html Convert.

(** Each line-feed and each carriage return becomes one space. *)
Fixpoint breaks_to_spaces (s : string) : string :=
  match s with
  | EmptyString => EmptyString
  | String c r =>
      String (if Ascii.eqb c "010" || Ascii.eqb c "013" then " "%char else c)
             (breaks_to_spaces r)
  end.

(** Text nodes below some [p] element get [breaks_to_spaces], all others
    are kept. *)
Fixpoint collapse_in_paragraphs (in_p : bool) (n : node) : node :=
  match n with
  | Text s => Text (if in_p then breaks_to_spaces s else s)
  | Element name attrs ch =>
      Element name attrs (map (collapse_in_paragraphs (in_p || String.eqb name "p")) ch)
  end.

Lemma collapse_text_breaks (s : string) : collapse_text s = breaks_to_spaces s.
Proof.
  unfold collapse_text.
  induction s as [|c r IH]; [reflexivity|].
  simpl. rewrite IH. f_equal.
  destruct (Ascii.eqb c "010") eqn:E1.
  - reflexivity.
  - simpl. destruct (Ascii.eqb c "013"); reflexivity.
Qed.

Lemma breaks_to_spaces_idem (s : string) :
  breaks_to_spaces (breaks_to_spaces s) = breaks_to_spaces s.
Proof.
  induction s as [|c r IH]; [reflexivity|].
  simpl. rewrite IH. f_equal.
  destruct (Ascii.eqb c "010" || Ascii.eqb c "013") eqn:E; [reflexivity|].
  rewrite E. reflexivity.
Qed.

Lemma remove_lb_node_spec (n : node) : forall (pending : string -> string) (b : bool),
  (forall s, pending s = if b then breaks_to_spaces s else s) ->
  remove_lb_node pending n = collapse_in_paragraphs b n.
Proof.
  induction n as [s | name attrs ch IH] using node_ind'; intros pending b Hp.
  - simpl. now rewrite Hp.
  - simpl. f_equal. apply map_ext_Forall.
    eapply Forall_impl; [|exact IH]. intros c Hc. apply Hc.
    intros s. destruct (String.eqb name "p").
    + rewrite collapse_text_breaks, Hp, orb_true_r.
      destruct b; [apply breaks_to_spaces_idem|reflexivity].
    + rewrite orb_false_r. apply Hp.
Qed.

End Paragraphs.

(* ------------------------------------------------------------------ *)
(** ** Link cleanup: the pattern [q=http(s)://...] *)

Module StrFacts.

Lemma append_assoc (a b c : string) : ((a ++ b) ++ c)%string = (a ++ (b ++ c))%string.
Proof. induction a as [|x a IH]; simpl; [reflexivity|]. now rewrite IH. Qed.

Lemma length_append (a b : string) : String.length (a ++ b) = String.length a + String.length b.
Proof. induction a as [|x a IH]; simpl; [reflexivity|]. now rewrite IH. Qed.

End StrFacts.

Module Links.
Import Html Convert StrFacts.

(** An occurrence of the pattern at the start of [s]: [q=], the scheme
    [http] or [https], [://] and a first character other than ['&']. *)
Definition qurl_at (s : string) : Prop :=
  exists sch c rest, (sch = "http" \/ sch = "https")
    /\ s = ("q=" ++ sch ++ "://" ++ String c rest)%string /\ c <> "&"%char.

(** The pattern occurs somewhere in [s]. *)
Definition contains_qurl (s : string) : Prop :=
  exists p1 p2, s = (p1 ++ p2)%string /\ qurl_at p2.

(** No ['&'] in [x]. *)
Definition amp_free (x : string) : Prop :=
  forall i, String.get i x <> Some "&"%char.

Lemma strip_prefix_some (p s r : string) :
  strip_prefix p s = Some r -> s = (p ++ r)%string.
Proof.
  revert s; induction p as [|a p IH]; intros s; simpl.
  - now intros [= ->].
  - destruct s as [|b s]; [discriminate|].
    destruct (Ascii.eqb_spec a b); [subst|discriminate].
    intros H. now rewrite (IH _ H).
Qed.

Lemma take_non_amp_length (s : string) :
  String.length (take_non_amp s) <= String.length s.
Proof.
  induction s as [|c r IH]; simpl; [lia|].
  destruct (Ascii.eqb c "&"); simpl; lia.
Qed.

Lemma after_scheme_some (sch r m : string) :
  after_scheme sch r = Some m ->
  exists c rest, r = ("://" ++ String c rest)%string /\ c <> "&"%char
    /\ m = (sch ++ "://" ++ take_non_amp (String c rest))%string.
Proof.
  unfold after_scheme.
  destruct (strip_prefix "://" r) as [r'|] eqn:E; [|discriminate].
  apply strip_prefix_some in E. subst r.
  destruct (take_non_amp r') as [|a x] eqn:Et; [discriminate|].
  intros [= <-].
  destruct r' as [|c rest]; [discriminate|].
  exists c, rest. split; [reflexivity|]. split.
  - intros ->. discriminate.
  - now rewrite Et.
Qed.

Lemma match_q_some (s m : string) :
  match_q s = Some m ->
  qurl_at s /\ String.length m + 2 <= String.length s.
Proof.
  unfold match_q.
  destruct (strip_prefix "q=http" s) as [r|] eqn:E1; [|discriminate].
  apply strip_prefix_some in E1. subst s.
  assert (Hhttp : after_scheme "http" r = Some m ->
            qurl_at ("q=http" ++ r) /\ String.length m + 2 <= String.length ("q=http" ++ r)).
  { intros H. apply after_scheme_some in H as (c & rest & -> & Hc & ->).
    split.
    - exists "http", c, rest. split; [left; reflexivity|]. split; [reflexivity|exact Hc].
    - rewrite !length_append. pose proof (take_non_amp_length (String c rest)).
      remember (take_non_amp (String c rest)) as t. simpl in *. lia. }
  destruct (strip_prefix "s" r) as [r'|] eqn:E2; [|exact Hhttp].
  destruct (after_scheme "https" r') eqn:E3; [|exact Hhttp].
  intros [= <-]. apply strip_prefix_some in E2. subst r.
  apply after_scheme_some in E3 as (c & rest & -> & Hc & ->).
  split.
  - exists "https", c, rest. split; [right; reflexivity|]. split; [reflexivity|exact Hc].
  - rewrite !length_append. pose proof (take_non_amp_length (String c rest)).
    remember (take_non_amp (String c rest)) as t. simpl in *. lia.
Qed.

Lemma qurl_at_match_q (s : string) : qurl_at s -> match_q s <> None.
Proof.
  intros (sch & c & rest & [-> | ->] & -> & Hc);
    unfold match_q, after_scheme; simpl;
    apply Ascii.eqb_neq in Hc; rewrite Hc; discriminate.
Qed.

Lemma match_q_none (s : string) : ~ qurl_at s -> match_q s = None.
Proof.
  intros H. destruct (match_q s) eqn:E; [|reflexivity].
  exfalso. apply H. now apply match_q_some in E.
Qed.

Lemma re_search_some (s m : string) :
  re_search_q s = Some m -> exists p1 p2, s = (p1 ++ p2)%string /\ match_q p2 = Some m.
Proof.
  induction s as [|c r IH]; simpl.
  - intros H. exists "", "". split; [reflexivity|exact H].
  - destruct (match_q (String c r)) eqn:E.
    + intros [= <-]. exists "", (String c r). split; [reflexivity|exact E].
    + intros H. destruct (IH H) as (p1 & p2 & -> & Hm).
      exists (String c p1), p2. split; [reflexivity|exact Hm].
Qed.

Lemma re_search_found (p1 p2 : string) :
  match_q p2 <> None -> re_search_q (p1 ++ p2) <> None.
Proof.
  induction p1 as [|c r IH]; simpl; intros H.
  - destruct (match_q p2) as [m|] eqn:E; [|contradiction].
    destruct p2; cbn [re_search_q]; rewrite E; discriminate.
  - destruct (match_q (String c (r ++ p2))); [discriminate|]. now apply IH.
Qed.

Lemma re_search_none (s : string) : re_search_q s = None <-> ~ contains_qurl s.
Proof.
  split.
  - intros H (p1 & p2 & -> & Hq).
    apply (re_search_found p1 p2); [|exact H].
    now apply qurl_at_match_q.
  - intros H. destruct (re_search_q s) as [m|] eqn:E; [|reflexivity].
    exfalso. apply H. apply re_search_some in E as (p1 & p2 & -> & Hm).
    exists p1, p2. split; [reflexivity|]. now apply match_q_some in Hm.
Qed.

Lemma re_search_length (s m : string) :
  re_search_q s = Some m -> String.length m + 2 <= String.length s.
Proof.
  intros H. apply re_search_some in H as (p1 & p2 & -> & Hm).
  apply match_q_some in Hm as [_ Hl]. rewrite length_append. lia.
Qed.

(** No occurrence starts inside [pre]: the search reaches [post]. *)
Lemma re_search_skip (pre post : string) :
  (forall p1 p2, pre = (p1 ++ p2)%string -> p2 <> "" -> ~ qurl_at (p2 ++ post)) ->
  re_search_q (pre ++ post) = re_search_q post.
Proof.
  induction pre as [|c r IH]; intros H; [reflexivity|].
  simpl. rewrite match_q_none.
  - apply IH. intros p1 p2 -> Hp2. apply (H (String c p1) p2); [reflexivity|exact Hp2].
  - apply (H "" (String c r)); [reflexivity|discriminate].
Qed.

Lemma take_non_amp_app (x tail : string) :
  amp_free x -> (tail = "" \/ exists t, tail = String "&" t) ->
  take_non_amp (x ++ tail) = x.
Proof.
  intros Hx Ht. induction x as [|c r IH]; simpl.
  - destruct Ht as [-> | [t ->]]; reflexivity.
  - destruct (Ascii.eqb_spec c "&").
    + exfalso. apply (Hx 0). simpl. now subst.
    + rewrite IH; [reflexivity|]. intros i. apply (Hx (S i)).
Qed.

Lemma match_q_exact (sch x tail : string) :
  (sch = "http" \/ sch = "https") -> x <> "" -> amp_free x ->
  (tail = "" \/ exists t, tail = String "&" t) ->
  match_q ("q=" ++ sch ++ "://" ++ x ++ tail) = Some (sch ++ "://" ++ x)%string.
Proof.
  intros Hs Hx Ha Ht.
  pose proof (take_non_amp_app x tail Ha Ht) as Htk.
  destruct x as [|c r]; [contradiction|].
  simpl in Htk. destruct (Ascii.eqb c "&"); [discriminate|].
  injection Htk as Hr.
  destruct Hs as [-> | ->]; unfold match_q, after_scheme; simpl.
  - destruct (Ascii.eqb c "&") eqn:Hc.
    + exfalso. apply Ascii.eqb_eq in Hc. subst. apply (Ha 0). reflexivity.
    + rewrite Hr. reflexivity.
  - destruct (Ascii.eqb c "&") eqn:Hc.
    + exfalso. apply Ascii.eqb_eq in Hc. subst. apply (Ha 0). reflexivity.
    + rewrite Hr. reflexivity.
Qed.

End Links.

(* ------------------------------------------------------------------ *)
(** ** Image paths: [basename] is the last ['/']-separated segment *)

Module Images.
Import Html Convert.

Lemma rfind_none (sep : ascii) (s : string) :
  PosixPath.rfind sep s = None -> Py.split sep s = [s].
Proof.
  induction s as [|a r IH]; simpl; [reflexivity|].
  destruct (PosixPath.rfind sep r); [discriminate|].
  destruct (Ascii.eqb a sep); [discriminate|].
  intros _. now rewrite IH.
Qed.

Lemma rfind_some (sep : ascii) (s : string) (i : nat) :
  PosixPath.rfind sep s = Some i -> exists h y t, Py.split sep s = h :: y :: t.
Proof.
  revert i; induction s as [|a r IH]; intros i; simpl; [discriminate|].
  destruct (PosixPath.rfind sep r) as [j|] eqn:E.
  - intros _. destruct (IH j eq_refl) as (h & y & t & ->).
    destruct (Ascii.eqb a sep); eauto.
  - rewrite (rfind_none sep r E).
    destruct (Ascii.eqb a sep); [|discriminate]. eauto.
Qed.

Lemma substring_full (s : string) : substring 0 (String.length s) s = s.
Proof. induction s as [|c r IH]; simpl; [reflexivity|]. now rewrite IH. Qed.

Lemma basename_last (p : string) :
  PosixPath.basename p = last (Py.split "/" p) "".
Proof.
  induction p as [|a r IH]; [reflexivity|].
  unfold PosixPath.basename in *. cbv zeta in *. simpl PosixPath.rfind.
  destruct (PosixPath.rfind "/" r) as [i|] eqn:E.
  - destruct (rfind_some "/" r i E) as (h & y & t & Hs).
    replace (substring (S (S i)) (String.length (String a r) - S (S i)) (String a r))
      with (substring (S i) (String.length r - S i) r) by reflexivity.
    rewrite IH, Hs. simpl. rewrite Hs.
    destruct (Ascii.eqb a "/"); reflexivity.
  - pose proof (rfind_none "/" r E) as Hs.
    simpl. rewrite Hs.
    destruct (Ascii.eqb a "/") eqn:Ea.
    + simpl. rewrite Nat.sub_0_r. apply substring_full.
    + simpl. f_equal. apply substring_full.
Qed.

Lemma split_no_lead_sep (sep : ascii) (s : string) :
  Forall (fun x => Py.startswith x (String sep "") = false) (Py.split sep s).
Proof.
  induction s as [|c r IH]; simpl.
  - constructor; [reflexivity|constructor].
  - destruct (Ascii.eqb c sep) eqn:E.
    + constructor; [reflexivity|exact IH].
    + destruct (PyFacts.split_cons sep r) as (h & t & Hs).
      rewrite Hs in *. inversion IH; subst.
      constructor; [|assumption].
      unfold Py.startswith. simpl.
      destruct (ascii_dec sep c) as [->|]; [|reflexivity].
      now rewrite Ascii.eqb_refl in E.
Qed.

Lemma last_Forall {A} (P : A -> Prop) (l : list A) (d : A) :
  Forall P l -> P d -> P (last l d).
Proof.
  intros Hl Hd. induction Hl as [|x l Hx Hl IH]; [exact Hd|].
  destruct l; [exact Hx|exact IH].
Qed.

Lemma join_images (b : string) :
  Py.startswith b "/" = false -> PosixPath.join "images" b = ("images/" ++ b)%string.
Proof. intros H. unfold PosixPath.join. rewrite H. reflexivity. Qed.

Lemma join_images_basename (src : string) :
  PosixPath.join "images" (PosixPath.basename src) = ("images/" ++ last (Py.split "/" src) "")%string.
Proof.
  rewrite basename_last. apply join_images.
  apply (last_Forall (fun x => Py.startswith x "/" = false)); [|reflexivity].
  apply split_no_lead_sep.
Qed.

End Images.

(* ------------------------------------------------------------------ *)
(** ** tomdtopdf.py: [field_check], [content_check] and [main] *)

Module Md2Pdf.

(** Values of the YAML frontmatter mapping, with Python truthiness. *)
#[local] Set Warnings "-register-all".
Inductive pyvalue : Type :=
| VNone
| VBool (b : bool)
| VInt (z : Z)
| VStr (s : string)
| VDate (y m d : Z)
| VList (l : list pyvalue)
| VDict (kv : list (string * pyvalue)).

Definition truthy (v : pyvalue) : bool :=
  match v with
  | VNone => false
  | VBool b => b
  | VInt z => negb (Z.eqb z 0)
  | VStr s => Py.str_truthy s
  | VDate _ _ _ => true
  | VList l => negb (Nat.eqb (List.length l) 0)
  | VDict kv => negb (Nat.eqb (List.length kv) 0)
  end.

Definition metadata := list (string * pyvalue).

(** [metadata[k]] if [k in metadata]. *)
Fixpoint lookup (k : string) (md : metadata) : option pyvalue :=
  match md with
  | [] => None
  | (k', v) :: rest => if String.eqb k k' then Some v else lookup k rest
  end.

(** A check either calls [sys.exit(code)] or lets [main] go on. *)
Inductive outcome : Type :=
| Exit (code : Z)
| Continue.

Definition required_fields : list string :=
  ["title"; "version"; "date_modified"; "pdf_filename"].

(** [for field in required_fields:
       if field not in metadata or not metadata[field]: sys.exit(1)] *)
Fixpoint check_fields (fields : list string) (md : metadata) : outcome :=
  match fields with
  | [] => Continue
  | field :: rest =>
      match lookup field md with
      | None => Exit 1
      | Some v => if truthy v then check_fields rest md else Exit 1
      end
  end.

Definition field_check (md : metadata) : outcome := check_fields required_fields md.

(** [if not content: sys.exit(1)]
    [if not any(line.strip().startswith("#") for line in content.split("\n")): sys.exit(1)] *)
Definition content_check (content : string) : outcome :=
  if negb (Py.str_truthy content) then Exit 1
  else if negb (existsb (fun line => Py.startswith (Py.strip line) "#")
                        (Py.split "010" content))
  then Exit 1
  else Continue.

(** [main] after [load_doc]: the process exits, or goes on to [md2html]
    (the Markdown conversion) and [html2pdf] (the rendering) with the
    loaded metadata and content. *)
Inductive run : Type :=
| Exited (code : Z)
| Rendered (md : metadata) (content : string).

Definition main (md : metadata) (content : string) : run :=
  match field_check md with
  | Exit code => Exited code
  | Continue =>
      match content_check content with
      | Exit code => Exited code
      | Continue => Rendered md content
      end
  end.

(** An empty YAML value: null, the empty string, list or mapping. *)
Definition empty_value (v : pyvalue) : Prop :=
  v = VNone \/ v = VStr "" \/ v = VList [] \/ v = VDict [].

Lemma check_fields_exit (fields : list string) (md : metadata) (code : Z) :
  check_fields fields md = Exit code -> code = 1%Z.
Proof.
  induction fields as [|f fs IH]; simpl; [discriminate|].
  destruct (lookup f md) as [v|]; [|congruence].
  destruct (truthy v); [exact IH|congruence].
Qed.

Lemma check_fields_missing (fields : list string) (md : metadata) (f : string) :
  In f fields -> (lookup f md = None \/ exists v, lookup f md = Some v /\ truthy v = false) ->
  check_fields fields md = Exit 1.
Proof.
  induction fields as [|f' fs IH]; simpl; [contradiction|].
  intros [-> | Hin] Hf.
  - destruct Hf as [-> | (v & -> & Hv)]; [reflexivity|]. now rewrite Hv.
  - destruct (lookup f' md) as [v|]; [|reflexivity].
    destruct (truthy v); [|reflexivity]. now apply IH.
Qed.

Lemma empty_value_falsy (v : pyvalue) : empty_value v -> truthy v = false.
Proof. intros [-> | [-> | [-> | ->]]]; reflexivity. Qed.

End Md2Pdf.

(* ------------------------------------------------------------------ *)
(** ** Helper lemmas for the properties below *)

Module Helpers.
Import Html Convert.

Lemma process_node_elem (name0 : string) step attrs ch :
  process_node name0 step (Element name0 attrs ch)
  = Element name0 (step attrs) (map (process_node name0 step) ch).
Proof. simpl. now rewrite String.eqb_refl. Qed.

Lemma re_search_here (s m : string) : match_q s = Some m -> re_search_q s = Some m.
Proof. intros H. destruct s; cbn [re_search_q]; now rewrite H. Qed.

(** One step of [link_sub] when the next character is not ['[']. *)
Lemma link_sub_step (prev : option ascii) (c : ascii) (r : string) :
  String.get 0 r <> Some "["%char ->
  Text.link_sub prev (String c r) = String c (Text.link_sub (Some c) r).
Proof.
  intros H. destruct r as [|d r']; [reflexivity|].
  destruct d as [[] [] [] [] [] [] [] []]; try reflexivity.
  exfalso. now apply H.
Qed.

Lemma link_sub_no_bracket (prev : option ascii) (s : string) :
  (forall i, String.get i s <> Some "["%char) -> Text.link_sub prev s = s.
Proof.
  revert prev; induction s as [|c r IH]; intros prev H; [reflexivity|].
  rewrite link_sub_step by exact (H 1).
  f_equal. apply IH. intros i. exact (H (S i)).
Qed.

End Helpers.

(* ------------------------------------------------------------------ *)
(** * Further code of the two tools *)

(** ** [html2pdf] and [md2html]'s template location (tomdtopdf.py,
       2md2pdf.py) *)

Module Md2PdfMore.
Import Md2Pdf.

(** [html2pdf]: [if not metadata.get("pdf_filename"): raise ValueError(...)],
    caught by its own [except] which calls [sys.exit(1)]; otherwise the PDF
    is written to [metadata["pdf_filename"]]. *)
Inductive pdf_outcome : Type :=
| PdfExit (code : Z)
| WritePdf (filename : pyvalue).

Definition html2pdf (md : metadata) : pdf_outcome :=
  match lookup "pdf_filename" md with
  | Some v => if truthy v then WritePdf v else PdfExit 1
  | None => PdfExit 1
  end.

(** [str.rstrip(c)] for one character [c]. *)
Fixpoint rstrip_char (c : ascii) (s : string) : string :=
  match s with
  | EmptyString => EmptyString
  | String a r =>
      let r' := rstrip_char c r in
      if Ascii.eqb a c && String.eqb r' EmptyString then EmptyString
      else String a r'
  end.

(** [s == c * len(s)]: [s] is made of [c] only. *)
Fixpoint all_char (c : ascii) (s : string) : bool :=
  match s with
  | EmptyString => true
  | String a r => Ascii.eqb a c && all_char c r
  end.

(** [posixpath.split(p)]:
    [i = p.rfind('/') + 1; head, tail = p[:i], p[i:];
     if head and head != '/'*len(head): head = head.rstrip('/')]. *)
Definition path_split (p : string) : string * string :=
  let i := match PosixPath.rfind "/" p with Some i => S i | None => 0 end in
  let head := substring 0 i p in
  let tail := substring i (String.length p - i) p in
  let head := if Py.str_truthy head && negb (all_char "/" head)
              then rstrip_char "/" head else head in
  (head, tail).

(** In [md2html]: [template_dir, template_file = os.path.split(template_location)]
    and [template_dir = template_dir if template_dir else "."]. *)
Definition template_paths (template_location : string) : string * string :=
  let (template_dir, template_file) := path_split template_location in
  (if Py.str_truthy template_dir then template_dir else ".", template_file).

Lemma check_fields_continue (fields : list string) (md : metadata) :
  check_fields fields md = Continue <->
  (forall f, In f fields -> exists v, lookup f md = Some v /\ truthy v = true).
Proof.
  induction fields as [|f fs IH]; simpl.
  - split; [intros _ f []|reflexivity].
  - destruct (lookup f md) as [v|] eqn:E.
    + destruct (truthy v) eqn:Ev.
      * rewrite IH. split.
        -- intros H g [<- | Hg]; [eauto|]. now apply H.
        -- intros H g Hg. apply H. now right.
      * split; [discriminate|]. intros H.
        destruct (H f (or_introl eq_refl)) as (v' & Hv' & Ht). congruence.
    + split; [discriminate|]. intros H.
      destruct (H f (or_introl eq_refl)) as (v' & Hv' & _). congruence.
Qed.

Lemma strip_empty : Py.strip "" = "".
Proof. reflexivity. Qed.

Lemma content_check_continue (content : string) :
  content_check content = Continue <->
  exists line, In line (Py.split "010" content) /\ Py.startswith (Py.strip line) "#" = true.
Proof.
  unfold content_check. rewrite <- existsb_exists.
  destruct content as [|c r].
  - simpl. split; discriminate.
  - simpl negb at 1. cbv match.
    destruct (existsb _ _); simpl; split; congruence.
Qed.

End Md2PdfMore.

Module PathFacts.
Import StrFacts Md2PdfMore.

Lemma substring_after (x y : string) (m : nat) :
  substring (String.length x) m (x ++ y) = substring 0 m y.
Proof. induction x as [|c x IH]; [reflexivity|]. exact IH. Qed.

Lemma substring_before (x y : string) :
  substring 0 (String.length x) (x ++ y) = x.
Proof. induction x as [|c x IH]; [destruct y; reflexivity|]. simpl. now rewrite IH. Qed.

Lemma rfind_app_sep (c : ascii) (d f : string) :
  PosixPath.rfind c f = None -> PosixPath.rfind c (d ++ String c f) = Some (String.length d).
Proof.
  intros Hf. induction d as [|a d IH]; simpl.
  - rewrite Hf, Ascii.eqb_refl. reflexivity.
  - rewrite IH. reflexivity.
Qed.

Lemma all_char_app (c : ascii) (x y : string) :
  all_char c (x ++ y) = all_char c x && all_char c y.
Proof. induction x as [|a x IH]; simpl; [reflexivity|]. now rewrite IH, andb_assoc. Qed.

Lemma rstrip_char_app (c : ascii) (x y : string) :
  rstrip_char c y <> "" -> rstrip_char c (x ++ y) = (x ++ rstrip_char c y)%string.
Proof.
  intros Hy. induction x as [|a x IH]; [reflexivity|].
  simpl. rewrite IH.
  destruct (x ++ rstrip_char c y)%string eqn:E.
  - exfalso. destruct x; simpl in E; [contradiction|discriminate].
  - rewrite andb_false_r. reflexivity.
Qed.

Lemma rfind_none_head (c : ascii) (f : string) :
  PosixPath.rfind c f = None -> Py.startswith f (String c "") = false.
Proof.
  destruct f as [|a r]; [reflexivity|]. simpl.
  destruct (PosixPath.rfind c r); [discriminate|].
  destruct (Ascii.eqb_spec a c) as [->|Hne]; [discriminate|].
  intros _. unfold Py.startswith. simpl.
  destruct (ascii_dec c a); [congruence|reflexivity].
Qed.

End PathFacts.

Module PathFacts2.
Import StrFacts Md2PdfMore PathFacts.

Lemma last_char_decomp (d : string) :
  d <> "" -> exists d' c, d = (d' ++ String c "")%string.
Proof.
  induction d as [|a d IH]; intros H; [contradiction|].
  destruct d as [|b d'].
  - exists "", a. reflexivity.
  - destruct IH as (d'' & c & Hd); [discriminate|].
    exists (String a d''), c. rewrite Hd. reflexivity.
Qed.

Lemma join_dir_file (d' : string) (c : ascii) (f : string) :
  c <> "/"%char -> PosixPath.rfind "/" f = None ->
  PosixPath.join (d' ++ String c "") f = ((d' ++ String c "") ++ String "/" f)%string.
Proof.
  intros Hc Hf. unfold PosixPath.join.
  rewrite (rfind_none_head _ _ Hf).
  rewrite length_append. simpl String.length.
  replace (String.length d' + 1 - 1) with (String.length d') by lia.
  rewrite substring_after.
  assert (E1 : String.eqb (d' ++ String c "") "" = false)
    by (destruct d'; reflexivity).
  assert (E2 : String.eqb (substring 0 1 (String c "")) "/" = false).
  { simpl. destruct (Ascii.eqb_spec c "/"); [contradiction|reflexivity]. }
  rewrite E1, E2. reflexivity.
Qed.

End PathFacts2.

Module OutPath.

(** [p[i:i+1] != '.'] for the indices [i .. i+n-1], the test of the loop
    [while filenameIndex < dotIndex] of [genericpath._splitext]. *)
Fixpoint has_non_dot (p : string) (i n : nat) : bool :=
  match n with
  | O => false
  | S n' => negb (String.eqb (substring i 1 p) ".") || has_non_dot p (S i) n'
  end.

(** [posixpath.splitext(p)], i.e. [_splitext(p, '/', None, '.')]:
    [sepIndex = p.rfind('/'); dotIndex = p.rfind('.')];
    if [dotIndex > sepIndex] and a character other than '.' lies between
    [sepIndex + 1] and [dotIndex], the result is [(p[:dotIndex], p[dotIndex:])],
    otherwise [(p, '')].  [None] stands for Python's [-1]. *)
Definition splitext (p : string) : string * string :=
  let sepIndex := PosixPath.rfind "/" p in
  let dotIndex := PosixPath.rfind "." p in
  match dotIndex with
  | Some d =>
      let start := match sepIndex with Some s => S s | None => 0 end in
      let after_sep := match sepIndex with Some s => Nat.ltb s d | None => true end in
      if after_sep && has_non_dot p start (d - start)
      then (substring 0 d p, substring d (String.length p - d) p)
      else (p, "")
  | None => (p, "")
  end.

(** [output_md_file = os.path.splitext(input_html_file)[0] + '.md'] *)
Definition output_md_file (input_html_file : string) : string :=
  (fst (splitext input_html_file) ++ ".md")%string.

Lemma rfind_lt (c : ascii) (s : string) (i : nat) :
  PosixPath.rfind c s = Some i -> i < String.length s.
Proof.
  revert i; induction s as [|a r IH]; intros i; simpl; [discriminate|].
  destruct (PosixPath.rfind c r) as [j|] eqn:E.
  - intros [= <-]. specialize (IH j eq_refl). lia.
  - destruct (Ascii.eqb a c); [intros [= <-]; lia|discriminate].
Qed.

Lemma substring_split (p : string) (n : nat) :
  n <= String.length p ->
  (substring 0 n p ++ substring n (String.length p - n) p)%string = p.
Proof.
  revert n; induction p as [|c r IH]; intros n Hn.
  - simpl in Hn. assert (n = 0) as -> by lia. reflexivity.
  - destruct n as [|n].
    + simpl. f_equal. apply Images.substring_full.
    + simpl in Hn. simpl. rewrite IH by lia. reflexivity.
Qed.

Lemma append_empty_r (s : string) : (s ++ "")%string = s.
Proof. induction s as [|c r IH]; simpl; [reflexivity|]. now rewrite IH. Qed.

Lemma append_cancel_l (x y z : string) : (x ++ y)%string = (x ++ z)%string -> y = z.
Proof. induction x as [|c r IH]; simpl; [auto|]. intros [= H]. now apply IH. Qed.

Lemma splitext_concat (p : string) :
  (fst (splitext p) ++ snd (splitext p))%string = p.
Proof.
  unfold splitext. destruct (PosixPath.rfind "." p) as [d|] eqn:E.
  - destruct (_ && _); simpl.
    + apply substring_split. apply rfind_lt in E. lia.
    + apply append_empty_r.
  - apply append_empty_r.
Qed.

End OutPath.

Module Inserts.
Import Text.

(** [t] is [s] with single spaces inserted right before some ['[']
    characters. *)
Inductive spaces_before_brackets : string -> string -> Prop :=
| sbb_nil : spaces_before_brackets "" ""
| sbb_keep (c : ascii) (s t : string) :
    spaces_before_brackets s t -> spaces_before_brackets (String c s) (String c t)
| sbb_insert (s t : string) :
    spaces_before_brackets (String "[" s) (String "[" t) ->
    spaces_before_brackets (String "[" s) (String " " (String "[" t)).

Lemma link_sub_inserts (s : string) : forall prev,
  spaces_before_brackets s (link_sub prev s).
Proof.
  remember (String.length s) as n eqn:Hn. revert s Hn.
  induction n as [n IH] using lt_wf_ind. intros s Hn prev.
  destruct s as [|c r]; [constructor|].
  destruct r as [|d r'].
  - simpl. constructor. constructor.
  - destruct (Ascii.eqb_spec d "[") as [-> | Hd].
    + assert (Hr' : spaces_before_brackets r' (link_sub (Some "["%char) r'))
        by (apply (IH (String.length r')); [simpl in *; lia|reflexivity]).
      assert (Hr : spaces_before_brackets (String "[" r') (link_sub (Some c) (String "[" r')))
        by (apply (IH (String.length (String "[" r'))); [simpl in *; lia|reflexivity]).
      change (link_sub prev (String c (String "[" r')))
        with (if link_match prev c
              then String c (String " " (String "[" (link_sub (Some "["%char) r')))
              else String c (link_sub (Some c) (String "[" r'))).
      destruct (link_match prev c).
      * constructor. constructor. constructor. exact Hr'.
      * constructor. exact Hr.
    + rewrite Helpers.link_sub_step by (simpl; intros [= E]; contradiction).
      constructor. apply (IH (String.length (String d r'))); [simpl in *; lia|reflexivity].
Qed.

End Inserts.

Module LinkFacts.
Import Convert Links.

Lemma take_non_amp_prefix (x : string) :
  exists b, x = (take_non_amp x ++ b)%string.
Proof.
  induction x as [|c r [b Hb]]; [exists ""; reflexivity|].
  simpl. destruct (Ascii.eqb c "&").
  - exists (String c r). reflexivity.
  - exists b. simpl. now rewrite <- Hb.
Qed.

Lemma take_non_amp_free (x : string) : amp_free (take_non_amp x).
Proof.
  induction x as [|c r IH]; intros i; simpl; [destruct i; discriminate|].
  destruct (Ascii.eqb_spec c "&"); [destruct i; discriminate|].
  destruct i; simpl; [intros [= E]; contradiction|apply IH].
Qed.

Lemma match_q_shape (s m : string) :
  match_q s = Some m ->
  exists sch x b, (sch = "http" \/ sch = "https") /\ x <> "" /\ amp_free x
    /\ m = (sch ++ "://" ++ x)%string /\ s = ("q=" ++ m ++ b)%string.
Proof.
  unfold match_q.
  destruct (strip_prefix "q=http" s) as [r|] eqn:E1; [|discriminate].
  apply strip_prefix_some in E1. subst s.
  assert (Hgen : forall sch r0, (sch = "http" \/ sch = "https") ->
            after_scheme sch r0 = Some m ->
            exists x b, x <> "" /\ amp_free x /\ m = (sch ++ "://" ++ x)%string
              /\ r0 = ("://" ++ x ++ b)%string).
  { intros sch r0 _ H. apply after_scheme_some in H as (c & rest & -> & Hc & ->).
    destruct (take_non_amp_prefix (String c rest)) as [b Hb].
    exists (take_non_amp (String c rest)), b. repeat split.
    - simpl. destruct (Ascii.eqb_spec c "&"); [contradiction|discriminate].
    - apply take_non_amp_free.
    - rewrite <- Hb. reflexivity. }
  destruct (strip_prefix "s" r) as [r'|] eqn:E2.
  - destruct (after_scheme "https" r') eqn:E3.
    + intros [= <-]. apply strip_prefix_some in E2. subst r.
      destruct (Hgen "https" r' (or_intror eq_refl) E3) as (x & b & Hx & Ha & Hm & ->).
      exists "https", x, b. repeat split; auto. rewrite Hm. reflexivity.
    + intros H. destruct (Hgen "http" r (or_introl eq_refl) H) as (x & b & Hx & Ha & Hm & ->).
      exists "http", x, b. repeat split; auto. rewrite Hm. reflexivity.
  - intros H. destruct (Hgen "http" r (or_introl eq_refl) H) as (x & b & Hx & Ha & Hm & ->).
    exists "http", x, b. repeat split; auto. rewrite Hm. reflexivity.
Qed.

End LinkFacts.

Module ParaFacts.
Import Html Convert Paragraphs.

(** A line feed or a carriage return in [s]. *)
Fixpoint has_break (s : string) : bool :=
  match s with
  | EmptyString => false
  | String c r => Ascii.eqb c "010" || Ascii.eqb c "013" || has_break r
  end.

(** Some text node below a [p] element (or below the root when [in_p])
    holds a line break. *)
Fixpoint break_in_p (in_p : bool) (n : node) : bool :=
  match n with
  | Text s => in_p && has_break s
  | Element name _ ch => existsb (break_in_p (in_p || String.eqb name "p")) ch
  end.

Lemma breaks_to_spaces_no_break (s : string) : has_break (breaks_to_spaces s) = false.
Proof.
  induction s as [|c r IH]; [reflexivity|]. simpl. rewrite IH.
  destruct (Ascii.eqb c "010" || Ascii.eqb c "013") eqn:E; [reflexivity|].
  rewrite E. reflexivity.
Qed.

Lemma collapse_no_break (n : node) : forall b,
  break_in_p b (collapse_in_paragraphs b n) = false.
Proof.
  induction n as [s | name attrs ch IH] using node_ind'; intros b; simpl.
  - destruct b; [apply breaks_to_spaces_no_break|reflexivity].
  - induction IH as [|x xs Hx _ IHxs]; [reflexivity|].
    simpl. rewrite Hx. exact IHxs.
Qed.

Lemma collapse_idem (n : node) : forall b,
  collapse_in_paragraphs b (collapse_in_paragraphs b n) = collapse_in_paragraphs b n.
Proof.
  induction n as [s | name attrs ch IH] using node_ind'; intros b; simpl.
  - destruct b; [now rewrite breaks_to_spaces_idem|reflexivity].
  - f_equal. rewrite map_map. apply map_ext_Forall.
    eapply Forall_impl; [|exact IH]. intros c Hc. apply Hc.
Qed.

Lemma remove_lb_collapse (doc : document) :
  remove_line_breaks_within_paragraphs doc = map (collapse_in_paragraphs false) doc.
Proof.
  apply map_ext. intros n. apply remove_lb_node_spec. reflexivity.
Qed.

End ParaFacts.

Module ImgFacts.
Import Html Convert.

Lemma get_set (k v : string) (attrs : list (string * string)) :
  get k (set k v attrs) = Some v.
Proof.
  induction attrs as [|[k' v'] rest IH]; simpl.
  - now rewrite String.eqb_refl.
  - destruct (String.eqb k k') eqn:E; simpl; rewrite ?E; [reflexivity|exact IH].
Qed.

Lemma set_set (k v1 v2 : string) (attrs : list (string * string)) :
  set k v2 (set k v1 attrs) = set k v2 attrs.
Proof.
  induction attrs as [|[k' v'] rest IH]; simpl.
  - now rewrite String.eqb_refl.
  - destruct (String.eqb k k') eqn:E; simpl; rewrite E; [reflexivity|now rewrite IH].
Qed.

Lemma split_parts_no_sep (sep : ascii) (s : string) :
  Forall (fun x => PosixPath.rfind sep x = None) (Py.split sep s).
Proof.
  induction s as [|c r IH]; simpl.
  - constructor; [reflexivity|constructor].
  - destruct (Ascii.eqb c sep) eqn:E.
    + constructor; [reflexivity|exact IH].
    + destruct (PyFacts.split_cons sep r) as (h & t & Hs).
      rewrite Hs in *. inversion IH; subst.
      constructor; [|assumption].
      simpl. rewrite H1, E. reflexivity.
Qed.

(** The new [src] [images/b] has [b] as its basename again. *)
Lemma rewritten_src_fixed (src : string) :
  let b := last (Py.split "/" src) "" in
  PosixPath.join "images" (PosixPath.basename ("images/" ++ b)) = ("images/" ++ b)%string.
Proof.
  intros b.
  assert (Hb : PosixPath.rfind "/" b = None).
  { apply (Images.last_Forall (fun x => PosixPath.rfind "/" x = None));
      [apply split_parts_no_sep|reflexivity]. }
  rewrite Images.join_images_basename. f_equal.
  simpl. rewrite (Images.rfind_none "/" b Hb). reflexivity.
Qed.

Lemma img_step_idem (attrs : list (string * string)) :
  img_step (img_step attrs) = img_step attrs.
Proof.
  destruct (get "src" attrs) as [src|] eqn:E.
  2:{ assert (Hstep : img_step attrs = attrs) by (unfold img_step; rewrite E; reflexivity).
      now rewrite !Hstep. }
  destruct (Py.str_truthy src) eqn:T.
  2:{ assert (Hstep : img_step attrs = attrs) by (unfold img_step; rewrite E, T; reflexivity).
      now rewrite !Hstep. }
  assert (Hstep : img_step attrs
                  = set "src" ("images/" ++ last (Py.split "/" src) "") attrs).
  { unfold img_step. rewrite E, T. now rewrite Images.join_images_basename. }
  rewrite Hstep. unfold img_step at 1. rewrite get_set.
  replace (Py.str_truthy ("images/" ++ last (Py.split "/" src) "")) with true by reflexivity.
  rewrite (rewritten_src_fixed src). apply set_set.
Qed.

Lemma process_node_idem (name0 : string) (step : list (string * string) -> list (string * string)) :
  (forall attrs, step (step attrs) = step attrs) ->
  forall n, process_node name0 step (process_node name0 step n) = process_node name0 step n.
Proof.
  intros Hs n.
  induction n as [s | name attrs ch IH] using node_ind'; [reflexivity|].
  simpl. f_equal.
  - destruct (String.eqb name name0); [apply Hs|reflexivity].
  - rewrite map_map. apply map_ext_Forall.
    eapply Forall_impl; [|exact IH]. intros c Hc. exact Hc.
Qed.

End ImgFacts.

Module HeadingIter.
Import Text PyFacts Headings.

(** [k] copies of ['#']. *)
Fixpoint hashes (k : nat) : string :=
  match k with
  | 0 => EmptyString
  | S k' => String "#" (hashes k')
  end.

Lemma rfind_none_cons (sep c : ascii) (x : string) :
  PosixPath.rfind sep (String c x) = None ->
  PosixPath.rfind sep x = None /\ Ascii.eqb c sep = false.
Proof.
  simpl. destruct (PosixPath.rfind sep x); [discriminate|].
  destruct (Ascii.eqb c sep); [discriminate|]. auto.
Qed.

Lemma split_app_sep (sep : ascii) (x r : string) :
  PosixPath.rfind sep x = None ->
  Py.split sep (x ++ String sep r) = x :: Py.split sep r.
Proof.
  induction x as [|c x IH]; intros Hx; [apply split_sep|].
  apply rfind_none_cons in Hx as [Hx Hc].
  simpl (String c x ++ String sep r)%string.
  apply split_char; [exact Hc|]. now apply IH.
Qed.

Lemma split_join (sep : ascii) (ls : list string) :
  ls <> [] -> Forall (fun x => PosixPath.rfind sep x = None) ls ->
  Py.split sep (Py.join sep ls) = ls.
Proof.
  induction ls as [|x [|y ys] IH]; intros Hne Hf; [contradiction| |].
  - inversion Hf; subst. apply Images.rfind_none. assumption.
  - inversion Hf; subst. rewrite join_cons_nonnil, split_app_sep by assumption.
    f_equal. apply IH; [discriminate|assumption].
Qed.

Lemma promote_line_no_lf (l : string) :
  PosixPath.rfind "010" l = None -> PosixPath.rfind "010" (promote_line l) = None.
Proof.
  intros H. unfold promote_line. destruct (Py.startswith l "#"); [|exact H].
  simpl. now rewrite H.
Qed.

Lemma hashes_hash (k : nat) (l : string) :
  (hashes k ++ String "#" l)%string = String "#" (hashes k ++ l).
Proof. induction k as [|k IH]; simpl; [reflexivity|]. now rewrite IH. Qed.

Lemma iter_promote_line (k : nat) (l : string) :
  Nat.iter k promote_line l = if Py.startswith l "#" then (hashes k ++ l)%string else l.
Proof.
  induction k as [|k IH]; simpl.
  - destruct (Py.startswith l "#"); reflexivity.
  - rewrite IH. destruct (Py.startswith l "#") eqn:E.
    + destruct l as [|c l']; [discriminate|].
      cbv delta [Py.startswith String.prefix] beta iota in E.
      destruct (ascii_dec "#" c) as [<-|]; [|discriminate].
      rewrite hashes_hash, promote_hash. reflexivity.
    + unfold promote_line. rewrite E. reflexivity.
Qed.

Lemma iter_promote_lines (k : nat) (s : string) :
  Nat.iter k promote_lines s
  = Py.join "010" (map (Nat.iter k promote_line) (Py.split "010" s)).
Proof.
  induction k as [|k IH].
  - simpl. rewrite map_id. symmetry. apply join_split.
  - rewrite Nat.iter_succ. rewrite IH. unfold promote_lines.
    rewrite split_join.
    + rewrite map_map. reflexivity.
    + destruct (split_cons "010" s) as (h & t & ->). discriminate.
    + apply Forall_map. pose proof (ImgFacts.split_parts_no_sep "010" s) as Hs.
      eapply Forall_impl; [|exact Hs]. intros x Hx. simpl.
      clear IH. induction k as [|k IHk]; [exact Hx|].
      apply promote_line_no_lf. exact IHk.
Qed.

End HeadingIter.

Module AttrFacts.
Import Html Convert.

(** The attributes other than [k]. *)
Definition drop_attr (k : string) (attrs : list (string * string)) : list (string * string) :=
  filter (fun kv => negb (String.eqb (fst kv) k)) attrs.

(** The tree with attribute [k] removed from every element. *)
Fixpoint erase_attr (k : string) (n : node) : node :=
  match n with
  | Text s => Text s
  | Element name attrs ch => Element name (drop_attr k attrs) (map (erase_attr k) ch)
  end.

Lemma drop_set (k v : string) (attrs : list (string * string)) :
  drop_attr k (set k v attrs) = drop_attr k attrs.
Proof.
  unfold drop_attr.
  induction attrs as [|[k' v'] rest IH]; simpl.
  - now rewrite String.eqb_refl.
  - destruct (String.eqb k k') eqn:E; simpl.
    + apply String.eqb_eq in E; subst k'. now rewrite String.eqb_refl.
    + rewrite String.eqb_sym, E. simpl. now rewrite IH.
Qed.

Lemma erase_process_node (k name0 : string) (step : list (string * string) -> list (string * string)) :
  (forall attrs, drop_attr k (step attrs) = drop_attr k attrs) ->
  forall n, erase_attr k (process_node name0 step n) = erase_attr k n.
Proof.
  intros Hs n.
  induction n as [s | name attrs ch IH] using node_ind'; [reflexivity|].
  simpl. f_equal.
  - destruct (String.eqb name name0); [apply Hs|reflexivity].
  - rewrite map_map. apply map_ext_Forall.
    eapply Forall_impl; [|exact IH]. intros c Hc. exact Hc.
Qed.

Lemma img_step_drop (attrs : list (string * string)) :
  drop_attr "src" (img_step attrs) = drop_attr "src" attrs.
Proof.
  unfold img_step. destruct (get "src" attrs); [|reflexivity].
  destruct (Py.str_truthy s); [apply drop_set|reflexivity].
Qed.

Lemma link_step_drop (attrs : list (string * string)) :
  drop_attr "href" (link_step attrs) = drop_attr "href" attrs.
Proof.
  unfold link_step. destruct (get "href" attrs); [apply drop_set|reflexivity].
Qed.

End AttrFacts.

(* ------------------------------------------------------------------ *)
(** * Properties of the specification *)

(** C1 (space before links).  The code does not insert a space between a
    word and a following link: on ["Word[link](url)"] the [\b] between
    ['d'] and ['r'] fails, so the text comes back unchanged; and the [!]
    lookbehind tests the character before [c], so in ["a![b](c)"] a space
    is inserted between the image marker ['!'] and ['[']. *)
Theorem ensure_space_before_links_word_link :
  Text.ensure_space_before_links "Word[link](url)" = "Word[link](url)"
  /\ Text.ensure_space_before_links "a![b](c)" = "a! [b](c)"
  /\ Text.ensure_space_before_links "![alt](img.png)" = "![alt](img.png)"
  /\ Text.ensure_space_before_links "Word [link](url)" = "Word [link](url)".
Proof. repeat split; reflexivity. Qed.

(** C2 (paragraph line breaks).  Every text node below a [p] element has
    each line feed and each carriage return replaced by one space; text
    nodes outside every [p] are kept; e.g. ["Hello\nWorld\r\n!"] in a [p]
    becomes ["Hello World  !"]. *)
Theorem remove_line_breaks_within_paragraphs_spec (doc : Html.document) :
  Convert.remove_line_breaks_within_paragraphs doc
    = map (Paragraphs.collapse_in_paragraphs false) doc
  /\ Convert.remove_line_breaks_within_paragraphs
       [Html.Element "p" []
          [Html.Text ("Hello" ++ String "010" ("World" ++ String "013" (String "010" "!")))]]
     = [Html.Element "p" [] [Html.Text "Hello World  !"]].
Proof.
  split; [|reflexivity].
  apply map_ext. intros n. apply Paragraphs.remove_lb_node_spec. reflexivity.
Qed.

(** C3 (link cleanup), counterexample: an [ftp] URL after [q=] is not
    taken, the href stays as it is. *)
Lemma clean_google_url_ftp_kept :
  Convert.process_links
    [Html.Element "a" [("href", "https://www.google.com/url?q=ftp://example.com/f&x=1")] []]
  = [Html.Element "a" [("href", "https://www.google.com/url?q=ftp://example.com/f&x=1")] []].
Proof. reflexivity. Qed.

(** C3 (link cleanup), as the code does it.  For an [a] node whose href is
    [pre ++ "q=" ++ sch ++ "://" ++ x ++ tail], with [sch] [http] or [https],
    [x] a non-empty run without ['&'] ended by the end of the href or a
    ['&'], and no earlier occurrence of the pattern, the href becomes
    [sch ++ "://" ++ x] verbatim; when the href has no occurrence of
    [q=http://] or [q=https://] followed by a character other than ['&'],
    the node keeps its attributes. *)
Theorem clean_google_url_spec (attrs : list (string * string)) (ch : list Html.node)
  (h : string) :
  Html.get "href" attrs = Some h ->
  (forall pre sch x tail,
      h = (pre ++ "q=" ++ sch ++ "://" ++ x ++ tail)%string ->
      (sch = "http" \/ sch = "https") -> x <> "" -> Links.amp_free x ->
      (tail = "" \/ exists t, tail = String "&" t) ->
      (forall p1 p2, pre = (p1 ++ p2)%string -> p2 <> "" ->
         ~ Links.qurl_at (p2 ++ "q=" ++ sch ++ "://" ++ x ++ tail)) ->
      Convert.process_node "a" Convert.link_step (Html.Element "a" attrs ch)
      = Html.Element "a" (Html.set "href" (sch ++ "://" ++ x) attrs)
          (map (Convert.process_node "a" Convert.link_step) ch))
  /\ (~ Links.contains_qurl h ->
      Convert.process_node "a" Convert.link_step (Html.Element "a" attrs ch)
      = Html.Element "a" attrs (map (Convert.process_node "a" Convert.link_step) ch)).
Proof.
  intros Hh. rewrite Helpers.process_node_elem.
  unfold Convert.link_step. rewrite Hh.
  split.
  - intros pre sch x tail -> Hs Hx Ha Ht Hpre.
    unfold Convert.clean_google_url.
    rewrite Links.re_search_skip by exact Hpre.
    rewrite (Helpers.re_search_here _ _ (Links.match_q_exact sch x tail Hs Hx Ha Ht)).
    reflexivity.
  - intros Hn. apply Links.re_search_none in Hn.
    unfold Convert.clean_google_url. rewrite Hn, Html.set_get by exact Hh.
    reflexivity.
Qed.

Lemma clean_google_url_spec_witness :
  Html.get "href" [("href", "https://www.google.com/url?q=https://example.com/page&other=1")]
    = Some "https://www.google.com/url?q=https://example.com/page&other=1"
  /\ Convert.process_node "a" Convert.link_step
       (Html.Element "a" [("href", "https://www.google.com/url?q=https://example.com/page&other=1")] [])
     = Html.Element "a" [("href", "https://example.com/page")] [].
Proof.
  split; [reflexivity|].
  destruct (clean_google_url_spec
              [("href", "https://www.google.com/url?q=https://example.com/page&other=1")] []
              "https://www.google.com/url?q=https://example.com/page&other=1" eq_refl)
    as [Hm _].
  rewrite (Hm "https://www.google.com/url?" "https" "example.com/page" "&other=1").
  - reflexivity.
  - reflexivity.
  - right; reflexivity.
  - discriminate.
  - intros i. do 16 (destruct i as [|i]; [discriminate|]). destruct i; discriminate.
  - right. exists "other=1". reflexivity.
  - intros p1 p2 Hp Hne (sch & c & rest & Hs & Heq & Hc).
    assert (Hl : String.length p1 + String.length p2 = 27)
      by (rewrite <- StrFacts.length_append, <- Hp; reflexivity).
    destruct p2 as [|d p2]; [contradiction|].
    destruct Hs as [-> | ->]; simpl in Heq; injection Heq as Hd Heq; subst d;
      (assert (Hq : String.get (String.length p1) "https://www.google.com/url?" = Some "q"%char)
         by (rewrite Hp; clear; induction p1; simpl; auto));
      (destruct (String.length p1) as [|[|[|[|[|[|[|[|[|[|[|[|[|[|[|[|[|[|[|[|[|[|[|[|[|[|[|]]]]]]]]]]]]]]]]]]]]]]]]]]];
       try discriminate Hq; simpl in Hl; lia).
Defined.

(** C4 (image paths), counterexample: an image whose [src] is present but
    empty keeps it; it does not become ["images/"]. *)
Lemma img_empty_src_not_rewritten :
  Convert.process_images [Html.Element "img" [("src", "")] []]
  = [Html.Element "img" [("src", "")] []]
  /\ ("images/" ++ last (Py.split "/" "") "")%string = "images/".
Proof. split; reflexivity. Qed.

(** C4 (image paths), as the code does it.  An [img] node with a non-empty
    [src] gets [src = "images/" ++ b], [b] the last ['/']-separated segment
    of the old [src], its other attributes kept; an [img] node with no
    [src], or with an empty one, keeps its attributes. *)
Theorem img_src_rewrite (attrs : list (string * string)) (ch : list Html.node) :
  Convert.process_node "img" Convert.img_step (Html.Element "img" attrs ch)
  = Html.Element "img"
      (match Html.get "src" attrs with
       | Some src =>
           if String.eqb src "" then attrs
           else Html.set "src" ("images/" ++ last (Py.split "/" src) "") attrs
       | None => attrs
       end)
      (map (Convert.process_node "img" Convert.img_step) ch).
Proof.
  rewrite Helpers.process_node_elem. f_equal.
  unfold Convert.img_step, Py.str_truthy.
  destruct (Html.get "src" attrs) as [src|]; [|reflexivity].
  destruct (String.eqb src ""); [reflexivity|].
  simpl. now rewrite Images.join_images_basename.
Qed.

(** C5 (heading promotion).  The text is processed line by line (lines
    separated by ['\n']): a line that starts with '#' gets one more '#' in
    front, every other line is kept; so a '#' not at a line start is never
    matched, ["# Title\n## Sub"] becomes ["## Title\n### Sub"] and a level-6
    heading gets seven '#'. *)
Theorem increase_heading_levels_spec (s : string) :
  Text.increase_heading_levels s = Headings.promote_lines s
  /\ Text.increase_heading_levels ("# Title" ++ String "010" "## Sub")
     = ("## Title" ++ String "010" "### Sub")%string
  /\ Text.increase_heading_levels "###### H6" = "####### H6"
  /\ Text.increase_heading_levels "a # b" = "a # b".
Proof.
  split; [apply Headings.increase_heading_levels_lines|].
  repeat split; reflexivity.
Qed.

(** C6 (no-op steps).  Each step is a total function; on an [img] node
    without [src], an href without a [q=http(s)://] URL, a text without a
    heading line and a text without ['['], the step returns its input. *)
Theorem pipeline_steps_noop (attrs : list (string * string))
  (href md_text link_text : string) :
  Html.get "src" attrs = None ->
  ~ Links.contains_qurl href ->
  Headings.has_heading_line md_text = false ->
  (forall i, String.get i link_text <> Some "["%char) ->
  Convert.img_step attrs = attrs
  /\ Convert.clean_google_url href = href
  /\ Text.increase_heading_levels md_text = md_text
  /\ Text.ensure_space_before_links link_text = link_text.
Proof.
  intros Hsrc Hq Hh Hl. repeat split.
  - unfold Convert.img_step. now rewrite Hsrc.
  - apply Links.re_search_none in Hq. unfold Convert.clean_google_url. now rewrite Hq.
  - rewrite Headings.increase_heading_levels_lines.
    now apply Headings.promote_lines_no_heading.
  - now apply Helpers.link_sub_no_bracket.
Qed.

Lemma pipeline_steps_noop_witness :
  Convert.img_step [("alt", "x")] = [("alt", "x")]
  /\ Convert.clean_google_url "https://example.com/" = "https://example.com/"
  /\ Text.increase_heading_levels "text" = "text"
  /\ Text.ensure_space_before_links "plain" = "plain".
Proof.
  apply (pipeline_steps_noop [("alt", "x")] "https://example.com/" "text" "plain").
  - reflexivity.
  - apply Links.re_search_none. reflexivity.
  - reflexivity.
  - intros i. do 5 (destruct i as [|i]; [discriminate|]). discriminate.
Defined.

(** C7 (input checks of tomdtopdf.py).  If a required field is absent or
    has an empty value, or the content is empty or has no line whose
    stripped form starts with '#', [main] exits with status 1 and never
    reaches the Markdown conversion or the rendering. *)
Theorem main_exits_on_bad_input (md : Md2Pdf.metadata) (content : string) :
  ((exists f, In f Md2Pdf.required_fields
      /\ (Md2Pdf.lookup f md = None
          \/ exists v, Md2Pdf.lookup f md = Some v /\ Md2Pdf.empty_value v))
   \/ content = ""
   \/ (forall line, In line (Py.split "010" content) ->
         Py.startswith (Py.strip line) "#" = false)) ->
  Md2Pdf.main md content = Md2Pdf.Exited 1.
Proof.
  intros H. unfold Md2Pdf.main.
  destruct (Md2Pdf.field_check md) as [code|] eqn:Ef.
  - now rewrite (Md2Pdf.check_fields_exit _ _ _ Ef).
  - destruct H as [(f & Hin & Hf) | [-> | Hc]].
    + exfalso.
      assert (Md2Pdf.field_check md = Md2Pdf.Exit 1) as E.
      { apply (Md2Pdf.check_fields_missing _ _ f Hin).
        destruct Hf as [Hn | (v & Hv & He)]; [now left|right].
        exists v. split; [exact Hv|]. now apply Md2Pdf.empty_value_falsy. }
      congruence.
    + reflexivity.
    + unfold Md2Pdf.content_check.
      destruct (Py.str_truthy content); [|reflexivity].
      replace (existsb (fun line => Py.startswith (Py.strip line) "#") (Py.split "010" content))
        with false; [reflexivity|].
      destruct (existsb _ _) eqn:Ex; [|reflexivity].
      apply existsb_exists in Ex as (line & Hl & Ht).
      rewrite (Hc line Hl) in Ht. discriminate.
Qed.

Lemma main_exits_on_bad_input_witness :
  Md2Pdf.main [("title", Md2Pdf.VStr "Doc"); ("version", Md2Pdf.VStr "")] "# Doc"
  = Md2Pdf.Exited 1.
Proof.
  apply main_exits_on_bad_input. left. exists "version". split.
  - simpl. tauto.
  - right. exists (Md2Pdf.VStr ""). split; [reflexivity|]. right; left; reflexivity.
Defined.

(** C8 (heading promotion is not idempotent).  Some text with a heading
    line changes again when the step is applied a second time. *)
Theorem increase_heading_levels_not_idempotent :
  exists s, Headings.has_heading_line s = true
    /\ Text.increase_heading_levels (Text.increase_heading_levels s)
       <> Text.increase_heading_levels s.
Proof.
  exists "# Title". split; [reflexivity|].
  rewrite !Headings.increase_heading_levels_lines. vm_compute. discriminate.
Qed.

(** C9 (where the pattern is looked for).  The link cleanup changes an href
    exactly when [q=http://] or [q=https://], followed by a character other
    than ['&'], occurs anywhere in it, also when the [q] ends a longer
    parameter name such as [freq]. *)
Theorem clean_google_url_rewrites_iff (href : string) :
  (Convert.clean_google_url href <> href <-> Links.contains_qurl href)
  /\ Convert.clean_google_url "https://host/?freq=https://x.com&a=1" = "https://x.com".
Proof.
  split; [|reflexivity].
  unfold Convert.clean_google_url.
  destruct (Convert.re_search_q href) as [m|] eqn:E.
  - split.
    + intros _. apply Links.re_search_some in E as (p1 & p2 & -> & Hm).
      exists p1, p2. split; [reflexivity|]. now apply Links.match_q_some in Hm.
    + intros _ ->. apply Links.re_search_length in E. lia.
  - split; [contradiction|].
    intros Hc. apply Links.re_search_none in E. contradiction.
Qed.

(** C10 (empty [src]).  An image node whose [src] is present but empty is
    left as it is by the image-path rewrite. *)
Theorem img_empty_src_unchanged (attrs : list (string * string)) :
  Html.get "src" attrs = Some "" ->
  Convert.img_step attrs = attrs
  /\ Convert.process_node "img" Convert.img_step (Html.Element "img" attrs [])
     = Html.Element "img" attrs [].
Proof.
  intros H. assert (Hs : Convert.img_step attrs = attrs)
    by (unfold Convert.img_step; now rewrite H).
  split; [exact Hs|]. now rewrite Helpers.process_node_elem, Hs.
Qed.

Lemma img_empty_src_unchanged_witness :
  Convert.img_step [("src", ""); ("alt", "logo")] = [("src", ""); ("alt", "logo")]
  /\ Convert.process_node "img" Convert.img_step
       (Html.Element "img" [("src", ""); ("alt", "logo")] [])
     = Html.Element "img" [("src", ""); ("alt", "logo")] [].
Proof. apply img_empty_src_unchanged. reflexivity. Defined.

(* ------------------------------------------------------------------ *)
(** * Further properties of the code *)

(** [field_check] lets [main] go on exactly when each of [title],
    [version], [date_modified] and [pdf_filename] is present with a truthy
    value. *)
Theorem field_check_passes_iff (md : Md2Pdf.metadata) :
  Md2Pdf.field_check md = Md2Pdf.Continue <->
  (forall f, In f Md2Pdf.required_fields ->
     exists v, Md2Pdf.lookup f md = Some v /\ Md2Pdf.truthy v = true).
Proof. apply Md2PdfMore.check_fields_continue. Qed.

(** [content_check] lets [main] go on exactly when some line of the content
    (split at ['\n']), once stripped of white space, starts with '#'; the
    empty content has no such line. *)
Theorem content_check_passes_iff (content : string) :
  Md2Pdf.content_check content = Md2Pdf.Continue <->
  exists line, In line (Py.split "010" content)
    /\ Py.startswith (Py.strip line) "#" = true.
Proof. apply Md2PdfMore.content_check_continue. Qed.

(** [main] only ever exits with status 1, and it reaches the conversion
    and rendering exactly when all four fields are truthy and some stripped
    line starts with '#'. *)
Theorem main_outcomes (md : Md2Pdf.metadata) (content : string) :
  (forall code, Md2Pdf.main md content = Md2Pdf.Exited code -> code = 1%Z)
  /\ (Md2Pdf.main md content = Md2Pdf.Rendered md content <->
      (forall f, In f Md2Pdf.required_fields ->
         exists v, Md2Pdf.lookup f md = Some v /\ Md2Pdf.truthy v = true)
      /\ (exists line, In line (Py.split "010" content)
            /\ Py.startswith (Py.strip line) "#" = true)).
Proof.
  rewrite <- Md2PdfMore.check_fields_continue, <- Md2PdfMore.content_check_continue.
  unfold Md2Pdf.main. fold (Md2Pdf.field_check md).
  destruct (Md2Pdf.field_check md) as [c|] eqn:Ef.
  - split.
    + intros code [= <-]. exact (Md2Pdf.check_fields_exit _ _ _ Ef).
    + split; [discriminate|]. intros [H _]. discriminate H.
  - destruct (Md2Pdf.content_check content) as [c|] eqn:Ec.
    + split.
      * intros code [= <-]. unfold Md2Pdf.content_check in Ec.
        destruct (negb _); [congruence|]. destruct (negb _); congruence.
      * split; [discriminate|]. intros [_ H]. discriminate H.
    + split; [discriminate|]. split; [auto|reflexivity].
Qed.

(** When [main] reaches the rendering, [html2pdf]'s own check of
    [pdf_filename] cannot fail: the PDF is written to that truthy value. *)
Theorem html2pdf_guard_passes_after_checks (md : Md2Pdf.metadata) (content : string) :
  Md2Pdf.main md content = Md2Pdf.Rendered md content ->
  exists v, Md2Pdf.lookup "pdf_filename" md = Some v /\ Md2Pdf.truthy v = true
    /\ Md2PdfMore.html2pdf md = Md2PdfMore.WritePdf v.
Proof.
  intros H. unfold Md2Pdf.main in H.
  destruct (Md2Pdf.field_check md) eqn:Ef; [discriminate|].
  pose proof (proj1 (Md2PdfMore.check_fields_continue Md2Pdf.required_fields md) Ef) as Hf.
  destruct (Hf "pdf_filename") as (v & Hv & Ht); [simpl; tauto|].
  exists v. split; [exact Hv|]. split; [exact Ht|].
  unfold Md2PdfMore.html2pdf. now rewrite Hv, Ht.
Qed.

Lemma html2pdf_guard_passes_after_checks_witness :
  exists v,
    Md2Pdf.lookup "pdf_filename"
      [("title", Md2Pdf.VStr "T"); ("version", Md2Pdf.VInt 1);
       ("date_modified", Md2Pdf.VDate 2024 12 4); ("pdf_filename", Md2Pdf.VStr "test.pdf")]
      = Some v /\ Md2Pdf.truthy v = true
    /\ Md2PdfMore.html2pdf
      [("title", Md2Pdf.VStr "T"); ("version", Md2Pdf.VInt 1);
       ("date_modified", Md2Pdf.VDate 2024 12 4); ("pdf_filename", Md2Pdf.VStr "test.pdf")]
      = Md2PdfMore.WritePdf v.
Proof.
  apply (html2pdf_guard_passes_after_checks _ "# Test Content"). reflexivity.
Defined.

(** [md2html] finds the template again from a location built as
    [os.path.join(d, f)]: for a file name [f] without ['/'] and a directory
    [d] not ending in ['/'], the template directory is [d] (["."] when [d] is
    empty) and the template file is [f]. *)
Theorem template_paths_join (d f : string) :
  PosixPath.rfind "/" f = None ->
  (forall d', d <> (d' ++ "/")%string) ->
  Md2PdfMore.template_paths (PosixPath.join d f)
  = (if String.eqb d "" then "." else d, f).
Proof.
  intros Hf Hd.
  destruct (String.eqb_spec d "") as [-> | Hne].
  - assert (Hj : PosixPath.join "" f = f).
    { unfold PosixPath.join. rewrite (PathFacts.rfind_none_head _ _ Hf). reflexivity. }
    rewrite Hj. unfold Md2PdfMore.template_paths, Md2PdfMore.path_split.
    rewrite Hf. cbv zeta. rewrite Nat.sub_0_r, Images.substring_full.
    destruct f; reflexivity.
  - destruct (PathFacts2.last_char_decomp d Hne) as (d' & c & ->).
    assert (Hc : c <> "/"%char) by (intros ->; exact (Hd d' eq_refl)).
    rewrite (PathFacts2.join_dir_file d' c f Hc Hf).
    set (D := (d' ++ String c "")%string).
    unfold Md2PdfMore.template_paths, Md2PdfMore.path_split.
    rewrite (PathFacts.rfind_app_sep "/" D f Hf).
    replace (D ++ String "/" f)%string with ((D ++ "/") ++ f)%string
      by (rewrite StrFacts.append_assoc; reflexivity).
    assert (HlD : String.length (D ++ "/") = S (String.length D))
      by (rewrite StrFacts.length_append; simpl; lia).
    rewrite <- HlD, PathFacts.substring_before.
    rewrite (StrFacts.length_append (D ++ "/") f), Nat.add_comm, Nat.add_sub, PathFacts.substring_after,
      Images.substring_full.
    assert (Hall : Md2PdfMore.all_char "/" (D ++ "/") = false).
    { unfold D. rewrite !PathFacts.all_char_app. simpl.
      destruct (Ascii.eqb_spec c "/"); [contradiction|].
      now rewrite !andb_false_r. }
    assert (Hstrip : Md2PdfMore.rstrip_char "/" (D ++ "/") = D).
    { unfold D. rewrite StrFacts.append_assoc.
      assert (Hy : Md2PdfMore.rstrip_char "/" (String c "" ++ "/") = String c "").
      { simpl. destruct (Ascii.eqb_spec c "/"); [contradiction|reflexivity]. }
      rewrite PathFacts.rstrip_char_app; rewrite Hy; [reflexivity|discriminate]. }
    assert (HtD : Py.str_truthy (D ++ "/") = true) by (unfold D; destruct d'; reflexivity).
    assert (HtD' : Py.str_truthy D = true) by (unfold D; destruct d'; reflexivity).
    assert (HeD : String.eqb D "" = false) by (unfold D; destruct d'; reflexivity).
    rewrite HtD, Hall, Hstrip. cbn [andb negb]. rewrite HtD'. unfold D. destruct d'; reflexivity.
Qed.

Lemma template_paths_join_witness :
  Md2PdfMore.template_paths (PosixPath.join "templates" "template.html")
  = ("templates", "template.html").
Proof.
  apply (template_paths_join "templates" "template.html").
  - reflexivity.
  - intros d' H.
    assert (Hl : String.length d' = 8).
    { apply (f_equal String.length) in H. simpl in H.
      rewrite StrFacts.length_append in H. simpl in H. lia. }
    apply (f_equal (fun s => String.get 8 s)) in H.
    destruct d' as [|a1 [|a2 [|a3 [|a4 [|a5 [|a6 [|a7 [|a8 [|a9 d']]]]]]]]];
      simpl in Hl; try lia. simpl in H. discriminate H.
Defined.

(* ------------------------------------------------------------------ *)
(** ** The output path of 2html2md.py's command line *)

(** The output path of 2html2md.py is the input with its extension (as
    [os.path.splitext] finds it) replaced by [.md]: root and extension put
    back together give the input, and the output path is the input path
    itself, so the input file is overwritten, exactly when that extension
    is [.md]. *)
Theorem output_md_file_spec (p : string) :
  (fst (OutPath.splitext p) ++ snd (OutPath.splitext p))%string = p
  /\ (OutPath.output_md_file p = p <-> snd (OutPath.splitext p) = ".md")
  /\ OutPath.output_md_file "site/page.html" = "site/page.md"
  /\ OutPath.output_md_file "v1.2/index" = "v1.2/index.md"
  /\ OutPath.output_md_file ".hidden" = ".hidden.md".
Proof.
  split; [apply OutPath.splitext_concat|].
  split; [|repeat split; reflexivity].
  unfold OutPath.output_md_file.
  pose proof (OutPath.splitext_concat p) as Hc.
  split.
  - intros H. rewrite <- Hc in H at 2. symmetry. exact (OutPath.append_cancel_l _ _ _ H).
  - intros He. rewrite <- He. exact Hc.
Qed.

(* ------------------------------------------------------------------ *)
(** ** Properties of the link passes *)

(** [ensure_space_before_links] only ever inserts single spaces, each right
    before a ['[']: it deletes and rewrites nothing. *)
Theorem ensure_space_before_links_only_inserts (s : string) :
  Inserts.spaces_before_brackets s (Text.ensure_space_before_links s).
Proof. apply Inserts.link_sub_inserts. Qed.

(** [clean_google_url] either returns the href unchanged, or returns an
    [http://] or [https://] URL with a non-empty ['&']-free rest, which occurs in
    the href right after a ["q="]: the inner URL is cut at its first ['&']. *)
Theorem clean_google_url_result_shape (href : string) :
  Convert.clean_google_url href = href
  \/ exists sch x a b,
       (sch = "http" \/ sch = "https") /\ x <> "" /\ Links.amp_free x
       /\ Convert.clean_google_url href = (sch ++ "://" ++ x)%string
       /\ href = (a ++ "q=" ++ Convert.clean_google_url href ++ b)%string.
Proof.
  unfold Convert.clean_google_url.
  destruct (Convert.re_search_q href) as [m|] eqn:E; [right|left; reflexivity].
  apply Links.re_search_some in E as (p1 & p2 & -> & Hm).
  apply LinkFacts.match_q_shape in Hm as (sch & x & b & Hs & Hx & Ha & -> & ->).
  exists sch, x, p1, b. repeat split; auto.
Qed.

(* ------------------------------------------------------------------ *)
(** ** The paragraph pass *)

(** After [remove_line_breaks_within_paragraphs] no text node below a [p]
    element holds a line feed or a carriage return. *)
Theorem remove_line_breaks_leaves_no_break_in_p (doc : Html.document) :
  existsb (ParaFacts.break_in_p false)
    (Convert.remove_line_breaks_within_paragraphs doc) = false.
Proof.
  rewrite ParaFacts.remove_lb_collapse.
  induction doc as [|n doc IH]; [reflexivity|].
  simpl. rewrite ParaFacts.collapse_no_break. exact IH.
Qed.

(** Running [remove_line_breaks_within_paragraphs] a second time changes
    nothing. *)
Theorem remove_line_breaks_idempotent (doc : Html.document) :
  Convert.remove_line_breaks_within_paragraphs
    (Convert.remove_line_breaks_within_paragraphs doc)
  = Convert.remove_line_breaks_within_paragraphs doc.
Proof.
  rewrite !ParaFacts.remove_lb_collapse, map_map.
  apply map_ext. intros n. apply ParaFacts.collapse_idem.
Qed.

(* ------------------------------------------------------------------ *)
(** ** The image pass *)

(** Running the image pass a second time changes nothing: a rewritten
    [src] is [images/b] with [b] free of ['/'], which maps to itself; the
    pass never produces [images/images/...]. *)
Theorem process_images_idempotent (doc : Html.document) :
  Convert.process_images (Convert.process_images doc) = Convert.process_images doc.
Proof.
  unfold Convert.process_images. rewrite map_map.
  apply map_ext. apply ImgFacts.process_node_idem. apply ImgFacts.img_step_idem.
Qed.

(* ------------------------------------------------------------------ *)
(** ** Repeated heading promotion *)

(** Applying [increase_heading_levels] [k] times prepends exactly [k] ['#']
    to every line that starts with ['#'] and keeps every other line: the
    level keeps growing past six. *)
Theorem increase_heading_levels_iter (k : nat) (s : string) :
  Nat.iter k Text.increase_heading_levels s
  = Py.join "010"
      (map (fun l => if Py.startswith l "#" then (HeadingIter.hashes k ++ l)%string else l)
           (Py.split "010" s)).
Proof.
  replace (Nat.iter k Text.increase_heading_levels s) with (Nat.iter k Headings.promote_lines s).
  2:{ induction k as [|k IH]; [reflexivity|]. rewrite !Nat.iter_succ.
      rewrite IH, Headings.increase_heading_levels_lines. reflexivity. }
  rewrite HeadingIter.iter_promote_lines. f_equal.
  apply map_ext. apply HeadingIter.iter_promote_line.
Qed.

(* ------------------------------------------------------------------ *)
(** ** What the tree passes leave alone *)

(** The image pass changes nothing but [src] attribute values: every tag,
    every text node and every other attribute is kept, in order. *)
Theorem process_images_only_src (doc : Html.document) :
  map (AttrFacts.erase_attr "src") (Convert.process_images doc)
  = map (AttrFacts.erase_attr "src") doc.
Proof.
  unfold Convert.process_images. rewrite map_map. apply map_ext.
  apply AttrFacts.erase_process_node. apply AttrFacts.img_step_drop.
Qed.

(** The link pass changes nothing but [href] attribute values: every tag,
    every text node and every other attribute is kept, in order. *)
Theorem process_links_only_href (doc : Html.document) :
  map (AttrFacts.erase_attr "href") (Convert.process_links doc)
  = map (AttrFacts.erase_attr "href") doc.
Proof.
  unfold Convert.process_links. rewrite map_map. apply map_ext.
  apply AttrFacts.erase_process_node. apply AttrFacts.link_step_drop.
Qed.
